(** * django-flag: the limit policy and the flag-recording function of
      [flag/models.py], embedded as Rocq functions over an explicit store. *)

From Stdlib Require Import ZArith Lia.
From stdpp Require Import gmap strings list fin_maps pretty.

(** ** Python values read by the module *)

(** A limit of [flag.settings]: Python [None] (nothing configured) or an
    integer. *)
Definition setting : Type := option Z.

(** Truth value of a setting, as [if not LIMIT:] tests it: [None] and [0]
    are false, every other integer is true. *)
Definition truthy (s : setting) : bool :=
  match s with
  | None => false
  | Some z => negb (z =? 0)%Z
  end.

(** [n < s] and [n >= s] for an integer [n].  The module is Python 2 code
    ([except E, e:]), where [None] orders below every integer. *)
Definition py_lt (n : Z) (s : setting) : bool :=
  match s with
  | None => false
  | Some z => (n <? z)%Z
  end.

Definition py_ge (n : Z) (s : setting) : bool :=
  match s with
  | None => true
  | Some z => (z <=? n)%Z
  end.

(** The names of [flag.settings].  [models.py] imports the two limits;
    [ALLOW_COMMENTS] is the comment switch the test-suite sets ([True]:
    a comment is required, [False]: comments are disallowed), which
    [models.py] does not import. *)
Record Settings := mkSettings {
  LIMIT_SAME_OBJECT_FOR_USER : setting;
  LIMIT_FOR_OBJECT : setting;
  ALLOW_COMMENTS : bool
}.

(** ** Exceptions and results *)

Inductive Exception :=
  | ContentAlreadyFlaggedByUserException (msg : string)
  | ContentFlaggedEnoughException (msg : string)
  | DoesNotExist
  | DatabaseError.

Inductive result (A : Type) :=
  | Return (a : A)
  | Raise (e : Exception).
Arguments Return {A} a.
Arguments Raise {A} e.

(** The two subclasses of [FlagException] that report a reached limit. *)
Definition is_limit_error (e : Exception) : bool :=
  match e with
  | ContentAlreadyFlaggedByUserException _ => true
  | ContentFlaggedEnoughException _ => true
  | _ => false
  end.

Definition raises {A} (r : result A) : bool :=
  match r with
  | Return _ => false
  | Raise _ => true
  end.

(** ** The two models *)

(** A [FlaggedContent] row.  [unique_together] makes the pair
    [(content_type, object_id)] a key of the table; rows are identified by
    it, and it stands for the primary key. *)
Record FlaggedContent := mkFlaggedContent {
  content_type : nat;
  object_id : nat;
  creator : option nat;
  status : string;
  moderator : option nat;
  count : nat
}.

Definition pk (self : FlaggedContent) : nat * nat :=
  (content_type self, object_id self).

Definition set_count (n : nat) (self : FlaggedContent) : FlaggedContent :=
  {| content_type := content_type self; object_id := object_id self;
     creator := creator self; status := status self;
     moderator := moderator self; count := n |}.

(** A [FlagInstance] row; [flagged_content] is the foreign key. *)
Record FlagInstance := mkFlagInstance {
  flagged_content : nat * nat;
  user : nat;
  when_added : nat;
  when_recalled : option nat;
  comment : option string
}.

Definition set_when_recalled (t : option nat) (fi : FlagInstance) : FlagInstance :=
  {| flagged_content := flagged_content fi; user := user fi;
     when_added := when_added fi; when_recalled := t;
     comment := comment fi |}.

(** The store: both tables, and the [content_flagged] signals sent so far
    (each with its [flagged_content] and [flagged_instance] arguments). *)
Record Store := mkStore {
  flaggedcontent_table : gmap (nat * nat) FlaggedContent;
  flaginstance_table : list FlagInstance;
  content_flagged_sent : list (FlaggedContent * FlagInstance)
}.

Definition empty_store : Store :=
  {| flaggedcontent_table := ∅; flaginstance_table := [];
     content_flagged_sent := [] |}.

(** ** Store-and-exception monad *)

Definition M (A : Type) : Type := Store → Store * result A.

#[global] Instance M_ret : MRet M := λ A a st, (st, Return a).

#[global] Instance M_bind : MBind M := λ A B f m st,
  match m st with
  | (st', Return a) => f a st'
  | (st', Raise e) => (st', Raise e)
  end.

(** A computation that only reads the store. *)
Definition reading {A} (f : Store → result A) : M A := λ st, (st, f st).

(** ** [FlaggedContent] methods *)

Section Methods.
Variable cfg : Settings.

(** [self.flaginstance_set.filter(user=user).count()] *)
Definition count_flags_by_user (st : Store) (self : FlaggedContent) (u : nat) : nat :=
  length (filter (λ fi, flagged_content fi = pk self ∧ user fi = u)
                 (flaginstance_table st)).

Definition can_be_flagged (self : FlaggedContent) : bool :=
  if negb (truthy (LIMIT_FOR_OBJECT cfg)) then true
  else py_lt (Z.of_nat (count self)) (LIMIT_FOR_OBJECT cfg).

Definition assert_can_be_flagged (self : FlaggedContent) : result bool :=
  if negb (can_be_flagged self)
  then Raise (ContentFlaggedEnoughException "Flag limit raised")
  else Return true.

Definition can_be_flagged_by_user (st : Store) (self : FlaggedContent) (u : nat) : bool :=
  if negb (truthy (LIMIT_SAME_OBJECT_FOR_USER cfg)) then true
  else if negb (can_be_flagged self) then false
  else py_lt (Z.of_nat (count_flags_by_user st self u))
             (LIMIT_SAME_OBJECT_FOR_USER cfg).

(** [ungettext(singular, plural, n)] without an active translation. *)
Definition ungettext (singular plural : string) (n : nat) : string :=
  if Nat.eqb n 1 then singular else plural.

(** The message of line 123-129: the plural form carries [%(count)d]. *)
Definition already_flagged_message (n : nat) : string :=
  ungettext "You already flagged this"
            ("You already flagged this " +:+ pretty n +:+ " times") n.

Definition assert_can_be_flagged_by_user (st : Store) (self : FlaggedContent) (u : nat)
  : result bool :=
  match assert_can_be_flagged self with
  | Raise e => Raise e
  | Return _ =>
      let count := count_flags_by_user st self u in
      if py_ge (Z.of_nat count) (LIMIT_SAME_OBJECT_FOR_USER cfg)
      then Raise (ContentAlreadyFlaggedByUserException (already_flagged_message count))
      else Return true
  end.
End Methods.

(** ** Table operations used by [add_flag] *)

Definition with_flaggedcontent (t : gmap (nat * nat) FlaggedContent) (st : Store) : Store :=
  {| flaggedcontent_table := t;
     flaginstance_table := flaginstance_table st;
     content_flagged_sent := content_flagged_sent st |}.

Definition with_flaginstance (l : list FlagInstance) (st : Store) : Store :=
  {| flaggedcontent_table := flaggedcontent_table st;
     flaginstance_table := l;
     content_flagged_sent := content_flagged_sent st |}.

Definition with_sent (l : list (FlaggedContent * FlagInstance)) (st : Store) : Store :=
  {| flaggedcontent_table := flaggedcontent_table st;
     flaginstance_table := flaginstance_table st;
     content_flagged_sent := l |}.

(** [FlaggedContent.objects.get_or_create(content_type=, object_id=,
    defaults=)]: the row of the pair when there is one, else a new row built
    from [defaults] and the field defaults ([status="1"], [moderator]
    null, [count=1]).  [defaults] holds [creator], and [status] when one
    was passed. *)
Definition get_or_create (ct oid : nat) (defaults : option nat * option string)
  : M (FlaggedContent * bool) := λ st,
  match flaggedcontent_table st !! (ct, oid) with
  | Some row => (st, Return (row, false))
  | None =>
      let row := {| content_type := ct; object_id := oid;
                    creator := defaults.1;
                    status := default "1" defaults.2;
                    moderator := None; count := 1 |} in
      (with_flaggedcontent (<[(ct, oid) := row]> (flaggedcontent_table st)) st,
       Return (row, true))
  end.

(** [self.count = models.F("count") + 1; self.save()]: the row is written
    with the fields of [self], and its count is the stored count plus one,
    computed by the database.  Without a stored row the [F] expression
    has nothing to read and the database refuses the statement. *)
Definition save_count_plus_1 (self : FlaggedContent) : M unit := λ st,
  match flaggedcontent_table st !! pk self with
  | Some row =>
      (with_flaggedcontent
         (<[pk self := set_count (S (count row)) self]> (flaggedcontent_table st)) st,
       Return ())
  | None => (st, Raise DatabaseError)
  end.

(** [FlaggedContent.objects.get(pk=pk)] *)
Definition get (key : nat * nat) : M FlaggedContent :=
  reading (λ st, match flaggedcontent_table st !! key with
                 | Some row => Return row
                 | None => Raise DoesNotExist
                 end).

(** [flag_instance.save()] of a new instance: one more row. *)
Definition save_flag_instance (fi : FlagInstance) : M unit := λ st,
  (with_flaginstance (flaginstance_table st ++ [fi]) st, Return ()).

(** [signals.content_flagged.send(sender=FlaggedContent, ...)] *)
Definition content_flagged_send (fc : FlaggedContent) (fi : FlagInstance) : M unit := λ st,
  (with_sent (content_flagged_sent st ++ [(fc, fi)]) st, Return ()).

(** ** [add_flag] *)

(** [now] is the value [datetime.now] gives [when_added]. *)
Definition add_flag (cfg : Settings) (now : nat)
    (flagger ct oid : nat) (content_creator : option nat)
    (comment : option string) (status : option string) : M FlagInstance :=
  let defaults := (content_creator, status) in
  '(flagged_content, created) ← get_or_create ct oid defaults;
  _ ← reading (λ st, assert_can_be_flagged_by_user cfg st flagged_content flagger);
  flagged_content ←
    (if negb created
     then _ ← save_count_plus_1 flagged_content; get (pk flagged_content)
     else mret flagged_content);
  let flag_instance :=
    {| flagged_content := pk flagged_content; user := flagger;
       when_added := now; when_recalled := None; comment := comment |} in
  _ ← save_flag_instance flag_instance;
  _ ← content_flagged_send flagged_content flag_instance;
  mret flag_instance.

(** ** Retraction *)

(** [FlagInstance] has the nullable [when_recalled]; [models.py] has no
    function that sets it.  A retraction is the row update
    [flag_instance.when_recalled = t; flag_instance.save()] on the [i]-th
    row of the table; it writes no other table. *)
Definition recall (i t : nat) (st : Store) : Store :=
  with_flaginstance (alter (set_when_recalled (Some t)) i (flaginstance_table st)) st.

(** A request to the store: a call of [add_flag], or a retraction. *)
Inductive op :=
  | Add (now flagger ct oid : nat) (content_creator : option nat)
        (comment status : option string)
  | Recall (i t : nat).

Definition step (cfg : Settings) (o : op) (st : Store) : Store :=
  match o with
  | Add now flagger ct oid cc c s => (add_flag cfg now flagger ct oid cc c s st).1
  | Recall i t => recall i t st
  end.

(** The store after a sequence of requests, first request first; an
    exception ends its call and leaves what the call had written. *)
Definition run (cfg : Settings) (ops : list op) (st : Store) : Store :=
  foldl (λ s o, step cfg o s) st ops.

(** The number of [FlagInstance] rows that point to an aggregate. *)
Definition count_flag_instances (st : Store) (key : nat * nat) : nat :=
  length (filter (λ fi, flagged_content fi = key) (flaginstance_table st)).

(** ** The pieces of a call of [add_flag] *)

Section Pieces.
Variables (now flagger ct oid : nat) (content_creator : option nat).
Variables (comment0 status0 : option string).

(** The row [get_or_create] inserts for a pair that has none. *)
Definition created_row : FlaggedContent :=
  {| content_type := ct; object_id := oid; creator := content_creator;
     status := default "1" status0; moderator := None; count := 1 |}.

Definition new_flag_instance (fc : FlaggedContent) : FlagInstance :=
  {| flagged_content := pk fc; user := flagger; when_added := now;
     when_recalled := None; comment := comment0 |}.

(** The store after the last three statements of a call that passed the
    check with aggregate [fc]. *)
Definition recorded (fc : FlaggedContent) (st : Store) : Store :=
  with_sent (content_flagged_sent st ++ [(fc, new_flag_instance fc)])
    (with_flaginstance (flaginstance_table st ++ [new_flag_instance fc]) st).
End Pieces.

Definition set_comment (c : option string) (fi : FlagInstance) : FlagInstance :=
  {| flagged_content := flagged_content fi; user := user fi;
     when_added := when_added fi; when_recalled := when_recalled fi;
     comment := c |}.

Definition set_ALLOW_COMMENTS (b : bool) (cfg : Settings) : Settings :=
  {| LIMIT_SAME_OBJECT_FOR_USER := LIMIT_SAME_OBJECT_FOR_USER cfg;
     LIMIT_FOR_OBJECT := LIMIT_FOR_OBJECT cfg;
     ALLOW_COMMENTS := b |}.

(** ** Settings and stores used as examples *)

(** No limit configured: both limits [0]. *)
Definition no_limits : Settings :=
  {| LIMIT_SAME_OBJECT_FOR_USER := Some 0%Z; LIMIT_FOR_OBJECT := Some 0%Z;
     ALLOW_COMMENTS := false |}.

(** At most [u] flags of one user on one object, at most [l] flags on one
    object. *)
Definition limits (u l : Z) : Settings :=
  {| LIMIT_SAME_OBJECT_FOR_USER := Some u; LIMIT_FOR_OBJECT := Some l;
     ALLOW_COMMENTS := false |}.

(** The aggregate of object 3 of content type 2, with the default status. *)
Definition aggregate_2_3 (cr : option nat) (n : nat) : FlaggedContent :=
  {| content_type := 2; object_id := 3; creator := cr; status := "1";
     moderator := None; count := n |}.

(** Object 3 of content type 2, flagged once by user 7 and once by user 8,
    under [limits 1 2]. *)
Definition two_flags : Store :=
  run (limits 1 2)
      [Add 100 7 2 3 None (Some "spam") None;
       Add 101 8 2 3 None (Some "spam") None] empty_store.

(** Object 3 of content type 2, created by user 9 and flagged once by
    user 7, under [limits 5 0]. *)
Definition one_flag : Store :=
  run (limits 5 0) [Add 100 7 2 3 (Some 9) (Some "spam") None] empty_store.

(** The limits let the first flag of an object through [add_flag]: the
    new row, of count [1], passes [can_be_flagged], and a user without
    flag on it passes the user-level test. *)
Definition admits_first_flag (cfg : Settings) : bool :=
  (negb (truthy (LIMIT_FOR_OBJECT cfg)) || py_lt 1 (LIMIT_FOR_OBJECT cfg))
  && negb (py_ge 0 (LIMIT_SAME_OBJECT_FOR_USER cfg)).

(** Every aggregate's count is the number of its flag instances, and no
    flag instance points to a missing aggregate. *)
Definition counts_agree (st : Store) : Prop :=
  ∀ key, count_flag_instances st key
         = from_option count 0 (flaggedcontent_table st !! key).

(** Rows are stored under their own key. *)
Definition store_ok (st : Store) : Prop :=
  map_Forall (λ key row, pk row = key) (flaggedcontent_table st).

(** ** [FlaggedContentManager.get_for_object] *)

(** [get_for_object(content_object)]: [ct] is the id of
    [ContentType.objects.get_for_model(content_object)], [oid] is
    [content_object.id]; [self.get(...)] raises [DoesNotExist] without a
    row ([unique_together] leaves no second one). *)
Definition get_for_object (ct oid : nat) : M FlaggedContent :=
  reading (λ st, match flaggedcontent_table st !! (ct, oid) with
                 | Some row => Return row
                 | None => Raise DoesNotExist
                 end).

(** The objects that the calls of [add_flag] in a sequence of requests
    name. *)
Definition flagged_objects (ops : list op) : list (nat * nat) :=
  flat_map (λ o, match o with
                 | Add _ _ ct oid _ _ _ => [(ct, oid)]
                 | Recall _ _ => []
                 end) ops.

(** * The limit policy *)

Section Policy.
Variable cfg : Settings.

Lemma truthy_pos (s : setting) (z : Z) : s = Some z → (0 < z)%Z → truthy s = true.
Proof. intros -> Hz. simpl. apply negb_true_iff, Z.eqb_neq. lia. Qed.

Lemma can_be_flagged_pos (self : FlaggedContent) (L : Z) :
  LIMIT_FOR_OBJECT cfg = Some L → (0 < L)%Z →
  can_be_flagged cfg self = (Z.of_nat (count self) <? L)%Z.
Proof.
  intros HL Hpos. unfold can_be_flagged.
  rewrite (truthy_pos _ _ HL Hpos), HL. reflexivity.
Qed.

(** C1. With an object-level limit [L > 0], [can_be_flagged] is false
    exactly when the aggregate's count is at least [L]; with the limit
    [0] or unset it is true whatever the count. *)
Theorem can_be_flagged_limit (self : FlaggedContent) :
  (∀ L : Z, LIMIT_FOR_OBJECT cfg = Some L → (0 < L)%Z →
     (can_be_flagged cfg self = false ↔ (L ≤ Z.of_nat (count self))%Z))
  ∧ (LIMIT_FOR_OBJECT cfg = Some 0%Z ∨ LIMIT_FOR_OBJECT cfg = None →
     can_be_flagged cfg self = true).
Proof.
  split.
  - intros L HL Hpos. rewrite (can_be_flagged_pos _ _ HL Hpos).
    rewrite Z.ltb_ge. reflexivity.
  - intros [H | H]; unfold can_be_flagged; rewrite H; reflexivity.
Qed.

(** C2, amended. With a user-level limit [U > 0],
    [can_be_flagged_by_user] is false exactly when [can_be_flagged] is
    false (the object-level limit is reached) or the user's number of
    flags on the aggregate is at least [U]. *)
Theorem can_be_flagged_by_user_limit (st : Store) (self : FlaggedContent) (u : nat) (U : Z) :
  LIMIT_SAME_OBJECT_FOR_USER cfg = Some U → (0 < U)%Z →
  (can_be_flagged_by_user cfg st self u = false ↔
     can_be_flagged cfg self = false
     ∨ (U ≤ Z.of_nat (count_flags_by_user st self u))%Z).
Proof.
  intros HU Hpos. unfold can_be_flagged_by_user.
  rewrite (truthy_pos _ _ HU Hpos), HU. simpl.
  destruct (can_be_flagged cfg self); simpl.
  - rewrite Z.ltb_ge. split; [auto | intros [H | H]; [discriminate | exact H]].
  - split; auto.
Qed.

(** C3. When the object-level limit and the user-level limit are both
    reached, [assert_can_be_flagged_by_user] raises
    [ContentFlaggedEnoughException], the object-level error. *)
Theorem object_limit_error_first (st : Store) (self : FlaggedContent) (u : nat) (L U : Z) :
  LIMIT_FOR_OBJECT cfg = Some L → (0 < L)%Z → (L ≤ Z.of_nat (count self))%Z →
  LIMIT_SAME_OBJECT_FOR_USER cfg = Some U → (0 < U)%Z →
  (U ≤ Z.of_nat (count_flags_by_user st self u))%Z →
  assert_can_be_flagged_by_user cfg st self u
    = Raise (ContentFlaggedEnoughException "Flag limit raised").
Proof.
  intros HL HLpos Hcount _ _ _.
  unfold assert_can_be_flagged_by_user, assert_can_be_flagged.
  rewrite (can_be_flagged_pos _ _ HL HLpos).
  apply Z.ltb_ge in Hcount. rewrite Hcount. reflexivity.
Qed.

(** The assertive variant fails whenever the user-level limit is [0] or
    unset: every count is [>= 0], and [>= None] in Python 2. *)
Lemma assert_raises_without_user_limit (st : Store) (self : FlaggedContent) (u : nat) :
  truthy (LIMIT_SAME_OBJECT_FOR_USER cfg) = false →
  can_be_flagged_by_user cfg st self u = true
  ∧ raises (assert_can_be_flagged_by_user cfg st self u) = true.
Proof.
  intros Hf. split.
  - unfold can_be_flagged_by_user. rewrite Hf. reflexivity.
  - unfold assert_can_be_flagged_by_user.
    destruct (assert_can_be_flagged cfg self); [| reflexivity].
    destruct (LIMIT_SAME_OBJECT_FOR_USER cfg) as [z |]; [| reflexivity].
    simpl in Hf. apply negb_false_iff, Z.eqb_eq in Hf. subst z. simpl.
    replace (0 <=? Z.of_nat _)%Z with true; [reflexivity |].
    symmetry. apply Z.leb_le. lia.
Qed.
End Policy.

(** * [add_flag] *)

Section AddFlag.
Variable cfg : Settings.
Variables (now flagger ct oid : nat) (content_creator : option nat).
Variables (comment0 status0 : option string).

Local Abbreviation created_row := (created_row ct oid content_creator status0).
Local Abbreviation new_flag_instance := (new_flag_instance now flagger comment0).
Local Abbreviation recorded := (recorded now flagger comment0).

(** [add_flag] on an object that has an aggregate. *)
Lemma add_flag_existing (st : Store) (row : FlaggedContent) :
  flaggedcontent_table st !! (ct, oid) = Some row →
  add_flag cfg now flagger ct oid content_creator comment0 status0 st =
    match assert_can_be_flagged_by_user cfg st row flagger with
    | Raise e => (st, Raise e)
    | Return _ =>
        match flaggedcontent_table st !! pk row with
        | Some stored =>
            let fc := set_count (S (count stored)) row in
            (recorded fc
               (with_flaggedcontent (<[pk row := fc]> (flaggedcontent_table st)) st),
             Return (new_flag_instance fc))
        | None => (st, Raise DatabaseError)
        end
    end.
Proof.
  intros Hrow.
  unfold add_flag, mbind, M_bind, get_or_create, reading. rewrite Hrow. simpl.
  destruct (assert_can_be_flagged_by_user cfg st row flagger) as [b | e]; [| reflexivity].
  unfold save_count_plus_1.
  destruct (flaggedcontent_table st !! pk row) as [stored |]; [| reflexivity].
  unfold get, reading, with_flaggedcontent. simpl.
  rewrite lookup_insert_eq. reflexivity.
Qed.

(** [add_flag] on an object that has no aggregate. *)
Lemma add_flag_new (st : Store) :
  flaggedcontent_table st !! (ct, oid) = None →
  let st1 := with_flaggedcontent (<[(ct, oid) := created_row]> (flaggedcontent_table st)) st in
  add_flag cfg now flagger ct oid content_creator comment0 status0 st =
    match assert_can_be_flagged_by_user cfg st1 created_row flagger with
    | Raise e => (st1, Raise e)
    | Return _ => (recorded created_row st1, Return (new_flag_instance created_row))
    end.
Proof.
  intros Hrow st1.
  unfold add_flag, mbind, M_bind, get_or_create, reading. rewrite Hrow. simpl.
  fold created_row. fold st1.
  destruct (assert_can_be_flagged_by_user cfg st1 created_row flagger); reflexivity.
Qed.
(** A call that raises has written nothing but, for an object without
    aggregate, the row of [get_or_create]. *)
Lemma add_flag_raise_store (st st' : Store) (e : Exception) :
  add_flag cfg now flagger ct oid content_creator comment0 status0 st = (st', Raise e) →
  st' = st
  ∨ (flaggedcontent_table st !! (ct, oid) = None
     ∧ st' = with_flaggedcontent
               (<[(ct, oid) := created_row]> (flaggedcontent_table st)) st).
Proof.
  intros Hrun.
  destruct (flaggedcontent_table st !! (ct, oid)) as [row |] eqn:Hrow.
  - left. rewrite (add_flag_existing st row Hrow) in Hrun.
    destruct (assert_can_be_flagged_by_user cfg st row flagger).
    + destruct (flaggedcontent_table st !! pk row); congruence.
    + congruence.
  - right. split; [reflexivity |].
    rewrite (add_flag_new st Hrow) in Hrun. simpl in Hrun.
    destruct (assert_can_be_flagged_by_user _ _ _ _); congruence.
Qed.

(** Under every configuration, a call of [add_flag] that ends with a
    limit error has created no flag instance, sent no signal, and left
    every aggregate that existed before the call as it was. *)
Theorem add_flag_limit_error_frame (st st' : Store) (e : Exception) :
  add_flag cfg now flagger ct oid content_creator comment0 status0 st = (st', Raise e) →
  is_limit_error e = true →
  flaginstance_table st' = flaginstance_table st
  ∧ content_flagged_sent st' = content_flagged_sent st
  ∧ (∀ key row, flaggedcontent_table st !! key = Some row →
                flaggedcontent_table st' !! key = Some row).
Proof.
  intros Hrun _.
  destruct (add_flag_raise_store st st' e Hrun) as [-> | [Hnone ->]].
  - auto.
  - simpl. split; [reflexivity | split; [reflexivity |]].
    intros key row Hkey. rewrite lookup_insert_ne; [exact Hkey | congruence].
Qed.

(** C6, amended. Every call of [add_flag] that returns has sent one
    [content_flagged] signal, with the aggregate and the new flag
    instance; a call that raises has sent none.  [add_flag] has no
    argument that switches the signal. *)
Theorem add_flag_sends_signal (st : Store) :
  match add_flag cfg now flagger ct oid content_creator comment0 status0 st with
  | (st', Return fi) =>
      ∃ fc, content_flagged_sent st' = content_flagged_sent st ++ [(fc, fi)]
            ∧ flaggedcontent_table st' !! flagged_content fi = Some fc
  | (st', Raise _) => content_flagged_sent st' = content_flagged_sent st
  end.
Proof.
  destruct (flaggedcontent_table st !! (ct, oid)) as [row |] eqn:Hrow.
  - rewrite (add_flag_existing st row Hrow).
    destruct (assert_can_be_flagged_by_user cfg st row flagger); [| reflexivity].
    destruct (flaggedcontent_table st !! pk row) as [stored |]; [| reflexivity].
    eexists. split; [reflexivity |]. simpl. apply lookup_insert_eq.
  - rewrite (add_flag_new st Hrow). simpl.
    destruct (assert_can_be_flagged_by_user _ _ _ _); [| reflexivity].
    eexists. split; [reflexivity |]. simpl. apply lookup_insert_eq.
Qed.

(** C7. When the object has an aggregate, a call of [add_flag], whatever
    [status] and [content_creator] it passes and however it ends, leaves
    the aggregate's status and creator as they were. *)
Theorem add_flag_keeps_status_and_creator (st : Store) (row : FlaggedContent) :
  store_ok st →
  flaggedcontent_table st !! (ct, oid) = Some row →
  ∃ row',
    flaggedcontent_table
      (add_flag cfg now flagger ct oid content_creator comment0 status0 st).1
      !! (ct, oid) = Some row'
    ∧ status row' = status row ∧ creator row' = creator row.
Proof.
  intros Hok Hrow. pose proof (Hok _ _ Hrow) as Hpk. simpl in Hpk.
  rewrite (add_flag_existing st row Hrow).
  destruct (assert_can_be_flagged_by_user cfg st row flagger).
  - rewrite Hpk, Hrow. simpl. rewrite lookup_insert_eq. eauto.
  - simpl. eauto.
Qed.
End AddFlag.

Lemma assert_ignores_ALLOW_COMMENTS cfg b st self u :
  assert_can_be_flagged_by_user (set_ALLOW_COMMENTS b cfg) st self u
  = assert_can_be_flagged_by_user cfg st self u.
Proof. reflexivity. Qed.

(** C5, amended. [add_flag] applies no comment policy: whether it returns
    or which exception it raises, and what it writes to the aggregate, is
    the same for every comment and every value of the comment setting;
    when it returns, the new flag instance holds the comment as passed. *)
Theorem add_flag_has_no_comment_policy cfg now flagger ct oid cc s st
    (b : bool) (c c' : option string) :
  let r := add_flag cfg now flagger ct oid cc c s st in
  let r' := add_flag (set_ALLOW_COMMENTS b cfg) now flagger ct oid cc c' s st in
  flaggedcontent_table r.1 = flaggedcontent_table r'.1
  ∧ (∀ e, r.2 = Raise e ↔ r'.2 = Raise e)
  ∧ (∀ fi, r.2 = Return fi → comment fi = c ∧ r'.2 = Return (set_comment c' fi)).
Proof.
  intros r r'. subst r r'.
  destruct (flaggedcontent_table st !! (ct, oid)) as [row |] eqn:Hrow.
  - rewrite !(add_flag_existing _ _ _ _ _ _ _ _ st row Hrow).
    rewrite assert_ignores_ALLOW_COMMENTS.
    destruct (assert_can_be_flagged_by_user cfg st row flagger).
    + destruct (flaggedcontent_table st !! pk row); simpl.
      * split; [reflexivity |]. split; [intros e; split; discriminate |].
        intros fi [= <-]. split; reflexivity.
      * split; [reflexivity |]. split; [reflexivity | discriminate].
    + simpl. split; [reflexivity |]. split; [reflexivity | discriminate].
  - rewrite !(add_flag_new _ _ _ _ _ _ _ _ st Hrow). simpl.
    rewrite assert_ignores_ALLOW_COMMENTS.
    destruct (assert_can_be_flagged_by_user _ _ _ _); simpl.
    + split; [reflexivity |]. split; [intros e; split; discriminate |].
      intros fi [= <-]. split; reflexivity.
    + split; [reflexivity |]. split; [reflexivity | discriminate].
Qed.

(** * Retraction and the user's count *)

Section Filter.
Context {A : Type} (P : A → Prop) `{!∀ x, Decision (P x)}.

Lemma length_filter_alter (f : A → A) (i : nat) (l : list A) :
  (∀ x, P (f x) ↔ P x) →
  length (filter P (alter f i l)) = length (filter P l).
Proof.
  intros Hf. revert i. induction l as [| x l IH]; intros i; [reflexivity |].
  destruct i as [| i]; simpl.
  - rewrite !filter_cons.
    destruct (decide (P (f x))) as [Hfx | Hfx], (decide (P x)) as [Hx | Hx];
      try reflexivity; exfalso; apply Hx || apply Hfx; apply Hf; assumption.
  - rewrite !filter_cons. specialize (IH i). unfold alter in IH.
    destruct (decide (P x)); simpl; rewrite IH; reflexivity.
Qed.

Lemma length_filter_split (Q : A → Prop) `{!∀ x, Decision (Q x)} (l : list A) :
  length (filter P l)
  = length (filter (λ x, P x ∧ Q x) l) + length (filter (λ x, P x ∧ ¬ Q x) l).
Proof.
  induction l as [| x l IH]; [reflexivity |].
  rewrite !filter_cons.
  destruct (decide (P x)), (decide (Q x));
    repeat case_decide; simpl; try lia; exfalso; tauto.
Qed.

Lemma length_filter_snoc (x : A) (l : list A) :
  length (filter P (l ++ [x]))
  = length (filter P l) + (if decide (P x) then 1 else 0).
Proof.
  rewrite filter_app, length_app, filter_cons, filter_nil.
  destruct (decide (P x)); reflexivity.
Qed.
End Filter.

Lemma count_flags_by_user_recall st self u i t :
  count_flags_by_user (recall i t st) self u = count_flags_by_user st self u.
Proof.
  unfold count_flags_by_user, recall. simpl.
  apply length_filter_alter. intros fi. reflexivity.
Qed.

Lemma count_flag_instances_recall st key i t :
  count_flag_instances (recall i t st) key = count_flag_instances st key.
Proof.
  unfold count_flag_instances, recall. simpl.
  apply length_filter_alter. intros fi. reflexivity.
Qed.

(** * The count and the flag instances *)

Lemma store_ok_empty : store_ok empty_store.
Proof. apply map_Forall_empty. Qed.

Lemma counts_agree_empty : counts_agree empty_store.
Proof. intros key. unfold count_flag_instances. simpl. rewrite lookup_empty. reflexivity. Qed.

Lemma count_flags_by_user_le st self u :
  count_flags_by_user st self u ≤ count_flag_instances st (pk self).
Proof.
  unfold count_flags_by_user, count_flag_instances.
  rewrite (length_filter_split (λ fi, flagged_content fi = pk self)
                               (λ fi, user fi = u)).
  lia.
Qed.

Lemma add_flag_store_ok cfg now flagger ct oid cc c s st :
  store_ok st → store_ok (add_flag cfg now flagger ct oid cc c s st).1.
Proof.
  intros Hok. unfold store_ok in *.
  destruct (flaggedcontent_table st !! (ct, oid)) as [row |] eqn:Hrow.
  - rewrite (add_flag_existing _ _ _ _ _ _ _ _ st row Hrow).
    destruct (assert_can_be_flagged_by_user cfg st row flagger); [| exact Hok].
    destruct (flaggedcontent_table st !! pk row); [| exact Hok].
    simpl. apply map_Forall_insert_2; [reflexivity | exact Hok].
  - rewrite (add_flag_new _ _ _ _ _ _ _ _ st Hrow). simpl.
    destruct (assert_can_be_flagged_by_user _ _ _ _); simpl;
      (apply map_Forall_insert_2; [reflexivity | exact Hok]).
Qed.

(** A call of [add_flag] never lowers the count of an aggregate. *)
Lemma add_flag_count_monotone cfg now flagger ct oid cc c s st key row :
  store_ok st →
  flaggedcontent_table st !! key = Some row →
  ∃ row', flaggedcontent_table (add_flag cfg now flagger ct oid cc c s st).1 !! key
          = Some row'
          ∧ count row ≤ count row'.
Proof.
  intros Hok Hkey.
  destruct (flaggedcontent_table st !! (ct, oid)) as [row0 |] eqn:Hrow.
  - pose proof (Hok _ _ Hrow) as Hpk. simpl in Hpk.
    rewrite (add_flag_existing _ _ _ _ _ _ _ _ st row0 Hrow).
    destruct (assert_can_be_flagged_by_user cfg st row0 flagger); [| eauto].
    rewrite Hpk, Hrow. simpl.
    destruct (decide (key = (ct, oid))) as [-> | Hne].
    + rewrite lookup_insert_eq. eexists. split; [reflexivity |].
      simpl. assert (row = row0) as -> by congruence. lia.
    + rewrite lookup_insert_ne by congruence. eauto.
  - rewrite (add_flag_new _ _ _ _ _ _ _ _ st Hrow). simpl.
    assert (key ≠ (ct, oid)) as Hne by congruence.
    destruct (assert_can_be_flagged_by_user _ _ _ _); simpl;
      rewrite lookup_insert_ne by congruence; eauto.
Qed.

(** When the limits let the first flag of an object through, a call of
    [add_flag] keeps every count equal to the number of flag instances. *)
Lemma add_flag_counts_agree cfg now flagger ct oid cc c s st :
  admits_first_flag cfg = true →
  store_ok st → counts_agree st →
  counts_agree (add_flag cfg now flagger ct oid cc c s st).1.
Proof.
  intros Hadm Hok Hagree.
  destruct (flaggedcontent_table st !! (ct, oid)) as [row |] eqn:Hrow.
  - pose proof (Hok _ _ Hrow) as Hpk. simpl in Hpk.
    rewrite (add_flag_existing _ _ _ _ _ _ _ _ st row Hrow).
    destruct (assert_can_be_flagged_by_user cfg st row flagger); [| exact Hagree].
    rewrite Hpk, Hrow. simpl. intros key.
    unfold count_flag_instances. simpl. rewrite length_filter_snoc. simpl.
    fold (count_flag_instances st key). rewrite Hagree.
    change (pk (set_count (S (count row)) row)) with (pk row). rewrite Hpk.
    destruct (decide ((ct, oid) = key)) as [<- | Hne].
    + rewrite lookup_insert_eq, Hrow. simpl. lia.
    + rewrite lookup_insert_ne by exact Hne. lia.
  - rewrite (add_flag_new _ _ _ _ _ _ _ _ st Hrow). simpl.
    set (row := created_row ct oid cc s).
    set (st1 := with_flaggedcontent _ st).
    assert (assert_can_be_flagged_by_user cfg st1 row flagger = Return true) as ->.
    { apply andb_true_iff in Hadm as [HL HU].
      assert (can_be_flagged cfg row = true) as Hcan.
      { unfold can_be_flagged.
        destruct (truthy (LIMIT_FOR_OBJECT cfg)); [exact HL | reflexivity]. }
      unfold assert_can_be_flagged_by_user, assert_can_be_flagged.
      rewrite Hcan. simpl.
      assert (count_flags_by_user st1 row flagger = 0) as ->.
      { pose proof (count_flags_by_user_le st1 row flagger) as Hle.
        pose proof (Hagree (ct, oid)) as H0. rewrite Hrow in H0. simpl in H0.
        change (count_flag_instances st1 (pk row))
          with (count_flag_instances st (ct, oid)) in Hle. lia. }
      apply negb_true_iff in HU. change (Z.of_nat 0) with 0%Z.
      rewrite HU. reflexivity. }
    simpl. intros key.
    unfold count_flag_instances. simpl. rewrite length_filter_snoc. simpl.
    fold (count_flag_instances st key). rewrite Hagree.
    destruct (decide ((ct, oid) = key)) as [<- | Hne].
    + rewrite lookup_insert_eq, Hrow. simpl.
      rewrite decide_True by reflexivity. reflexivity.
    + rewrite lookup_insert_ne by exact Hne.
      rewrite decide_False by exact Hne. lia.
Qed.

Lemma step_store_ok cfg o st : store_ok st → store_ok (step cfg o st).
Proof.
  destruct o; simpl; [apply add_flag_store_ok | exact id].
Qed.

Lemma step_counts_agree cfg o st :
  admits_first_flag cfg = true →
  store_ok st → counts_agree st → counts_agree (step cfg o st).
Proof.
  intros Hadm Hok Hagree. destruct o; simpl.
  - apply add_flag_counts_agree; assumption.
  - intros key. rewrite count_flag_instances_recall. apply Hagree.
Qed.

(** Under limits that let the first flag of an object through, every
    sequence of calls of [add_flag] and retractions from the empty store
    ends with every aggregate's count equal to the number of flag
    instances created for it. *)
Lemma run_counts_agree cfg ops :
  admits_first_flag cfg = true →
  store_ok (run cfg ops empty_store) ∧ counts_agree (run cfg ops empty_store).
Proof.
  intros Hadm. unfold run.
  generalize store_ok_empty counts_agree_empty. generalize empty_store.
  induction ops as [| o ops IH]; intros st Hok Hagree; [split; assumption |].
  simpl. apply IH; [apply step_store_ok | apply step_counts_agree]; assumption.
Qed.

(** * The theorems at concrete stores *)

Lemma two_flags_aggregate :
  flaggedcontent_table two_flags !! (2, 3) = Some (aggregate_2_3 None 2)
  ∧ count_flag_instances two_flags (2, 3) = 2.
Proof. split; vm_compute; reflexivity. Qed.

Lemma one_flag_aggregate :
  flaggedcontent_table one_flag !! (2, 3) = Some (aggregate_2_3 (Some 9) 1)
  ∧ count_flag_instances one_flag (2, 3) = 1.
Proof. split; vm_compute; reflexivity. Qed.

(** [can_be_flagged_limit] at limit 2 with count 2, and without limit. *)
Lemma can_be_flagged_limit_witness :
  (can_be_flagged (limits 1 2) (aggregate_2_3 None 2) = false
   ↔ (2 ≤ Z.of_nat (count (aggregate_2_3 None 2)))%Z)
  ∧ can_be_flagged no_limits (aggregate_2_3 None 2) = true.
Proof.
  split.
  - apply (proj1 (can_be_flagged_limit (limits 1 2) (aggregate_2_3 None 2)) 2%Z);
      [reflexivity | lia].
  - apply (proj2 (can_be_flagged_limit no_limits (aggregate_2_3 None 2))).
    left. reflexivity.
Defined.

(** C2 as stated fails: under [limits 1 2], user 9 has no flag on the
    aggregate of [two_flags], below the user-level limit 1, and
    [can_be_flagged_by_user] is false because the aggregate has reached
    the object-level limit 2. *)
Lemma can_be_flagged_by_user_counterexample :
  ¬ (∀ cfg st self u (U : Z),
       LIMIT_SAME_OBJECT_FOR_USER cfg = Some U → (0 < U)%Z →
       (can_be_flagged_by_user cfg st self u = false
        ↔ (U ≤ Z.of_nat (count_flags_by_user st self u))%Z)).
Proof.
  intros H.
  destruct (H (limits 1 2) two_flags (aggregate_2_3 None 2) 9 1%Z eq_refl) as [Hle _];
    [lia |].
  assert (count_flags_by_user two_flags (aggregate_2_3 None 2) 9 = 0) as Hcount
    by (vm_compute; reflexivity).
  rewrite Hcount in Hle.
  assert (1 ≤ Z.of_nat 0)%Z; [apply Hle; vm_compute; reflexivity | lia].
Qed.

(** [can_be_flagged_by_user_limit] under [limits 1 2] for user 9 on [two_flags]. *)
Lemma can_be_flagged_by_user_limit_witness :
  can_be_flagged_by_user (limits 1 2) two_flags (aggregate_2_3 None 2) 9 = false
  ↔ can_be_flagged (limits 1 2) (aggregate_2_3 None 2) = false
    ∨ (1 ≤ Z.of_nat (count_flags_by_user two_flags (aggregate_2_3 None 2) 9))%Z.
Proof.
  apply (can_be_flagged_by_user_limit (limits 1 2) two_flags (aggregate_2_3 None 2) 9 1%Z);
    [reflexivity | lia].
Defined.

(** [object_limit_error_first] under [limits 1 2] for user 7 on [two_flags]:
    count 2 of limit 2, one flag of user 7 of limit 1. *)
Lemma object_limit_error_first_witness :
  assert_can_be_flagged_by_user (limits 1 2) two_flags (aggregate_2_3 None 2) 7
  = Raise (ContentFlaggedEnoughException "Flag limit raised").
Proof.
  apply (object_limit_error_first (limits 1 2) two_flags (aggregate_2_3 None 2) 7 2%Z 1%Z);
    [reflexivity | lia | simpl; lia | reflexivity | lia | vm_compute; discriminate].
Defined.

(** C4 fails on the code. Under [limits 5 1], and under [no_limits], the
    first call for an object ends with a limit error after [get_or_create]
    has inserted the aggregate: the object had no aggregate before the
    call and has one after it, and no flag instance was created. *)
Theorem refused_first_flag_creates_aggregate :
  let call cfg := add_flag cfg 100 7 2 3 None (Some "spam") None empty_store in
  flaggedcontent_table empty_store !! (2, 3) = None
  ∧ ((call (limits 5 1)).2 = Raise (ContentFlaggedEnoughException "Flag limit raised")
     ∧ is_limit_error (ContentFlaggedEnoughException "Flag limit raised") = true
     ∧ flaggedcontent_table (call (limits 5 1)).1 !! (2, 3) = Some (aggregate_2_3 None 1)
     ∧ flaginstance_table (call (limits 5 1)).1 = [])
  ∧ ((call no_limits).2
       = Raise (ContentAlreadyFlaggedByUserException "You already flagged this 0 times")
     ∧ flaggedcontent_table (call no_limits).1 !! (2, 3) = Some (aggregate_2_3 None 1)
     ∧ flaginstance_table (call no_limits).1 = []).
Proof. repeat split; vm_compute; reflexivity. Qed.

(** [add_flag_limit_error_frame] at a third call for the object of
    [two_flags], refused by the object-level limit 2. *)
Lemma add_flag_limit_error_frame_witness :
  let st' := (add_flag (limits 1 2) 102 7 2 3 None (Some "spam") None two_flags).1 in
  flaginstance_table st' = flaginstance_table two_flags
  ∧ content_flagged_sent st' = content_flagged_sent two_flags
  ∧ (∀ key row, flaggedcontent_table two_flags !! key = Some row →
                flaggedcontent_table st' !! key = Some row).
Proof.
  apply (add_flag_limit_error_frame (limits 1 2) 102 7 2 3 None (Some "spam") None
           two_flags _ (ContentFlaggedEnoughException "Flag limit raised"));
    [vm_compute; reflexivity | reflexivity].
Defined.

(** C5 as stated fails: with a comment required, a call without comment
    returns and raises the count from 1 to 2; with comments disallowed, a
    call with a comment returns as well. *)
Lemma add_flag_comment_counterexample :
  let required := set_ALLOW_COMMENTS true (limits 5 0) in
  let disallowed := set_ALLOW_COMMENTS false (limits 5 0) in
  let r := add_flag required 101 8 2 3 None None None one_flag in
  let r' := add_flag disallowed 101 8 2 3 None (Some "hi") None one_flag in
  count <$> flaggedcontent_table one_flag !! (2, 3) = Some 1
  ∧ r.2 = Return {| flagged_content := (2, 3); user := 8; when_added := 101;
                    when_recalled := None; comment := None |}
  ∧ count <$> flaggedcontent_table r.1 !! (2, 3) = Some 2
  ∧ r'.2 = Return {| flagged_content := (2, 3); user := 8; when_added := 101;
                     when_recalled := None; comment := Some "hi" |}.
Proof. repeat split; vm_compute; reflexivity. Qed.

(** C6 as stated fails: [add_flag] has no argument to ask for the signal,
    and a plain call that returns has sent it. *)
Lemma add_flag_signal_counterexample :
  let r := add_flag (limits 5 0) 100 7 2 3 (Some 9) (Some "spam") None empty_store in
  let fi := {| flagged_content := (2, 3); user := 7; when_added := 100;
               when_recalled := None; comment := Some "spam" |} in
  r.2 = Return fi
  ∧ content_flagged_sent r.1 = [(aggregate_2_3 (Some 9) 1, fi)].
Proof. split; vm_compute; reflexivity. Qed.

(** [add_flag_keeps_status_and_creator] at a second call for the object of
    [one_flag], passing status ["3"] and creator 8. *)
Lemma add_flag_keeps_status_and_creator_witness :
  ∃ row',
    flaggedcontent_table
      (add_flag (limits 5 0) 101 8 2 3 (Some 8) None (Some "3") one_flag).1
      !! (2, 3) = Some row'
    ∧ status row' = status (aggregate_2_3 (Some 9) 1)
    ∧ creator row' = creator (aggregate_2_3 (Some 9) 1).
Proof.
  apply (add_flag_keeps_status_and_creator (limits 5 0) 101 8 2 3 (Some 8) None
           (Some "3") one_flag (aggregate_2_3 (Some 9) 1)).
  - apply (bool_decide_unpack _). vm_compute. exact I.
  - vm_compute. reflexivity.
Defined.

(** C8 fails on the code. Under [limits 5 1], and under [no_limits], the
    first call for an object is refused after [get_or_create] has
    inserted the aggregate with [count=1]: the count is 1 and no flag
    instance was created for it. *)
Theorem refused_first_flag_count :
  let call cfg := add_flag cfg 100 7 2 3 None (Some "spam") None empty_store in
  let after cfg := run cfg [Add 100 7 2 3 None (Some "spam") None] empty_store in
  ((call (limits 5 1)).2 = Raise (ContentFlaggedEnoughException "Flag limit raised")
   ∧ count <$> flaggedcontent_table (after (limits 5 1)) !! (2, 3) = Some 1
   ∧ count_flag_instances (after (limits 5 1)) (2, 3) = 0)
  ∧ ((call no_limits).2
       = Raise (ContentAlreadyFlaggedByUserException "You already flagged this 0 times")
     ∧ count <$> flaggedcontent_table (after no_limits) !! (2, 3) = Some 1
     ∧ count_flag_instances (after no_limits) (2, 3) = 0).
Proof. repeat split; vm_compute; reflexivity. Qed.

(** C9 fails on the code. With the user-level limit [0] (no limit), and
    the aggregate of [one_flag] that user 7 flagged once,
    [can_be_flagged_by_user] is true and
    [assert_can_be_flagged_by_user] raises
    [ContentAlreadyFlaggedByUserException]. *)
Theorem assert_disagrees_without_user_limit :
  can_be_flagged_by_user no_limits one_flag (aggregate_2_3 (Some 9) 1) 7 = true
  ∧ assert_can_be_flagged_by_user no_limits one_flag (aggregate_2_3 (Some 9) 1) 7
    = Raise (ContentAlreadyFlaggedByUserException "You already flagged this").
Proof. split; vm_compute; reflexivity. Qed.

(** * The two variants of the user-level check *)

Lemma assert_raises_user_limit cfg st self u (U : Z) :
  LIMIT_SAME_OBJECT_FOR_USER cfg = Some U → (0 < U)%Z →
  raises (assert_can_be_flagged_by_user cfg st self u)
  = negb (can_be_flagged_by_user cfg st self u).
Proof.
  intros HU Hpos.
  unfold assert_can_be_flagged_by_user, can_be_flagged_by_user, assert_can_be_flagged.
  rewrite (truthy_pos _ _ HU Hpos), HU. simpl.
  destruct (can_be_flagged cfg self); simpl; [| reflexivity].
  rewrite Z.ltb_antisym. destruct (U <=? _)%Z; reflexivity.
Qed.

(** X1. With a user-level limit [U > 0], the two variants of the check
    agree: [assert_can_be_flagged_by_user] returns [True] when
    [can_be_flagged_by_user] is true and raises one of the two limit
    errors when it is false. *)
Theorem assert_agrees_with_user_limit cfg st self u (U : Z) :
  LIMIT_SAME_OBJECT_FOR_USER cfg = Some U → (0 < U)%Z →
  if can_be_flagged_by_user cfg st self u
  then assert_can_be_flagged_by_user cfg st self u = Return true
  else ∃ e, assert_can_be_flagged_by_user cfg st self u = Raise e
            ∧ is_limit_error e = true.
Proof.
  intros HU Hpos.
  pose proof (assert_raises_user_limit cfg st self u U HU Hpos) as Hr.
  unfold assert_can_be_flagged_by_user, assert_can_be_flagged in *.
  destruct (can_be_flagged_by_user cfg st self u); simpl in Hr.
  - destruct (negb (can_be_flagged cfg self)); [discriminate |].
    destruct (py_ge _ _); [discriminate | reflexivity].
  - destruct (negb (can_be_flagged cfg self)); [eauto |].
    destruct (py_ge _ _); [eauto | discriminate].
Qed.

(** X2. [ContentAlreadyFlaggedByUserException] is raised only for an
    aggregate that passes the object-level check and a user whose number
    of flags [n] on it is [>=] the user-level limit; its message is
    "You already flagged this" for [n = 1] and names [n] otherwise. *)
Theorem user_limit_error_message cfg st self u msg :
  assert_can_be_flagged_by_user cfg st self u
    = Raise (ContentAlreadyFlaggedByUserException msg) →
  let n := count_flags_by_user st self u in
  can_be_flagged cfg self = true
  ∧ py_ge (Z.of_nat n) (LIMIT_SAME_OBJECT_FOR_USER cfg) = true
  ∧ msg = (if decide (n = 1) then "You already flagged this"
           else "You already flagged this " +:+ pretty n +:+ " times").
Proof.
  intros H n. unfold assert_can_be_flagged_by_user, assert_can_be_flagged in H.
  destruct (can_be_flagged cfg self); simpl in H; [| discriminate].
  fold n in H.
  destruct (py_ge (Z.of_nat n) (LIMIT_SAME_OBJECT_FOR_USER cfg)); [| discriminate].
  injection H as <-. split; [reflexivity | split; [reflexivity |]].
  unfold already_flagged_message, ungettext.
  destruct (decide (n = 1)) as [-> | Hne]; [reflexivity |].
  apply Nat.eqb_neq in Hne. rewrite Hne. reflexivity.
Qed.

(** X3. A negative object-level limit is not "no limit": every call of
    [add_flag] then raises [ContentFlaggedEnoughException], for an object
    with or without aggregate. *)
Theorem negative_object_limit_refuses cfg now flagger ct oid cc c s st (L : Z) :
  LIMIT_FOR_OBJECT cfg = Some L → (L < 0)%Z →
  (add_flag cfg now flagger ct oid cc c s st).2
  = Raise (ContentFlaggedEnoughException "Flag limit raised").
Proof.
  intros HL Hneg.
  assert (∀ st0 self u, assert_can_be_flagged_by_user cfg st0 self u
            = Raise (ContentFlaggedEnoughException "Flag limit raised")) as Hraise.
  { intros st0 self u.
    unfold assert_can_be_flagged_by_user, assert_can_be_flagged, can_be_flagged.
    rewrite HL. simpl.
    replace (L =? 0)%Z with false by (symmetry; apply Z.eqb_neq; lia).
    replace (Z.of_nat (count self) <? L)%Z with false
      by (symmetry; apply Z.ltb_ge; lia).
    reflexivity. }
  destruct (flaggedcontent_table st !! (ct, oid)) as [row |] eqn:Hrow.
  - rewrite (add_flag_existing _ _ _ _ _ _ _ _ st row Hrow), Hraise. reflexivity.
  - rewrite (add_flag_new _ _ _ _ _ _ _ _ st Hrow). simpl.
    rewrite Hraise. reflexivity.
Qed.

(** * What a call of [add_flag] writes *)

Section Outcome.
Variable cfg : Settings.
Variables (now flagger ct oid : nat) (content_creator : option nat).
Variables (comment0 status0 : option string).

Local Abbreviation call :=
  (add_flag cfg now flagger ct oid content_creator comment0 status0).
Local Abbreviation this_flag :=
  {| flagged_content := (ct, oid); user := flagger; when_added := now;
     when_recalled := None; comment := comment0 |}.

(** The flag-instance table after a call: the rows it had, and the
    returned instance when the call returns. *)
Lemma add_flag_instances (st : Store) :
  flaginstance_table (call st).1
  = flaginstance_table st
    ++ match (call st).2 with
       | Return fi => [fi]
       | Raise _ => []
       end.
Proof.
  destruct (flaggedcontent_table st !! (ct, oid)) as [row |] eqn:Hrow.
  - rewrite (add_flag_existing _ _ _ _ _ _ _ _ st row Hrow).
    destruct (assert_can_be_flagged_by_user cfg st row flagger);
      [| simpl; rewrite app_nil_r; reflexivity].
    destruct (flaggedcontent_table st !! pk row); simpl;
      [reflexivity | rewrite app_nil_r; reflexivity].
  - rewrite (add_flag_new _ _ _ _ _ _ _ _ st Hrow). simpl.
    destruct (assert_can_be_flagged_by_user _ _ _ _); simpl;
      [reflexivity | rewrite app_nil_r; reflexivity].
Qed.

(** The check a call of [add_flag] makes, on the aggregate it found or
    created, decides whether it returns. *)
Lemma add_flag_returned (st st' : Store) (fi : FlagInstance) :
  call st = (st', Return fi) →
  ∃ fc st0,
    flaginstance_table st0 = flaginstance_table st
    ∧ assert_can_be_flagged_by_user cfg st0 fc flagger = Return true
    ∧ flagged_content fi = pk fc ∧ user fi = flagger.
Proof.
  intros Hcall.
  destruct (flaggedcontent_table st !! (ct, oid)) as [row |] eqn:Hrow.
  - rewrite (add_flag_existing _ _ _ _ _ _ _ _ st row Hrow) in Hcall.
    destruct (assert_can_be_flagged_by_user cfg st row flagger) as [b |] eqn:Hassert;
      [| discriminate].
    destruct (flaggedcontent_table st !! pk row); [| discriminate].
    injection Hcall as _ <-. exists row, st.
    assert (b = true) as ->.
    { unfold assert_can_be_flagged_by_user, assert_can_be_flagged in Hassert.
      destruct (negb _); [discriminate |].
      destruct (py_ge _ _); congruence. }
    auto.
  - rewrite (add_flag_new _ _ _ _ _ _ _ _ st Hrow) in Hcall. simpl in Hcall.
    destruct (assert_can_be_flagged_by_user _ _ _ _) as [b |] eqn:Hassert;
      [| discriminate].
    injection Hcall as _ <-. eexists _, _. split; [| split; [| split]].
    2: { assert (b = true) as <-; [| exact Hassert].
         unfold assert_can_be_flagged_by_user, assert_can_be_flagged in Hassert.
         destruct (negb _); [discriminate |].
         destruct (py_ge _ _); congruence. }
    all: reflexivity.
Qed.

(** X4. With a user-level limit [U > 0], a call of [add_flag] for an
    object that has an aggregate raises exactly when
    [can_be_flagged_by_user] is false for the aggregate and the flagger. *)
Theorem add_flag_raises_iff (st : Store) (row : FlaggedContent) (U : Z) :
  store_ok st →
  flaggedcontent_table st !! (ct, oid) = Some row →
  LIMIT_SAME_OBJECT_FOR_USER cfg = Some U → (0 < U)%Z →
  raises (call st).2 = negb (can_be_flagged_by_user cfg st row flagger).
Proof.
  intros Hok Hrow HU Hpos. pose proof (Hok _ _ Hrow) as Hpk. simpl in Hpk.
  rewrite <- (assert_raises_user_limit cfg st row flagger U HU Hpos).
  rewrite (add_flag_existing _ _ _ _ _ _ _ _ st row Hrow).
  destruct (assert_can_be_flagged_by_user cfg st row flagger); [| reflexivity].
  rewrite Hpk, Hrow. reflexivity.
Qed.

(** X5. A call of [add_flag] that returns, for an object that has an
    aggregate, has raised the aggregate's count by one and changed no
    other field of it; the instance it returns is the flagger's, on this
    object, at [now], not recalled, with the comment passed. *)
Theorem add_flag_returns_existing (st st' : Store) (row : FlaggedContent) (fi : FlagInstance) :
  store_ok st →
  flaggedcontent_table st !! (ct, oid) = Some row →
  call st = (st', Return fi) →
  fi = this_flag
  ∧ flaggedcontent_table st' !! (ct, oid)
    = Some {| content_type := ct; object_id := oid; creator := creator row;
              status := status row; moderator := moderator row;
              count := S (count row) |}.
Proof.
  intros Hok Hrow Hcall. pose proof (Hok _ _ Hrow) as Hpk.
  rewrite (add_flag_existing _ _ _ _ _ _ _ _ st row Hrow) in Hcall.
  destruct (assert_can_be_flagged_by_user cfg st row flagger); [| discriminate].
  simpl in Hpk. rewrite Hpk, Hrow in Hcall. simpl in Hcall.
  injection Hcall as <- <-. injection Hpk as <- <-.
  split; [reflexivity |]. simpl. rewrite lookup_insert_eq. reflexivity.
Qed.

(** X6. A call of [add_flag] that returns, for an object without
    aggregate, has created the aggregate with count 1, the creator
    passed, the status passed or else ["1"], and no moderator. *)
Theorem add_flag_returns_new (st st' : Store) (fi : FlagInstance) :
  flaggedcontent_table st !! (ct, oid) = None →
  call st = (st', Return fi) →
  fi = this_flag
  ∧ flaggedcontent_table st' !! (ct, oid)
    = Some {| content_type := ct; object_id := oid; creator := content_creator;
              status := (if status0 is Some s then s else "1");
              moderator := None; count := 1 |}.
Proof.
  intros Hrow Hcall.
  rewrite (add_flag_new _ _ _ _ _ _ _ _ st Hrow) in Hcall. simpl in Hcall.
  destruct (assert_can_be_flagged_by_user _ _ _ _); [| discriminate].
  injection Hcall as <- <-.
  split; [reflexivity |]. simpl. rewrite lookup_insert_eq.
  unfold created_row. destruct status0; reflexivity.
Qed.

(** X7. However a call of [add_flag] ends, the aggregates of the other
    objects are as before. *)
Theorem add_flag_other_objects (st : Store) (key : nat * nat) :
  store_ok st → key ≠ (ct, oid) →
  flaggedcontent_table (call st).1 !! key = flaggedcontent_table st !! key.
Proof.
  intros Hok Hne.
  destruct (flaggedcontent_table st !! (ct, oid)) as [row |] eqn:Hrow.
  - pose proof (Hok _ _ Hrow) as Hpk. simpl in Hpk.
    rewrite (add_flag_existing _ _ _ _ _ _ _ _ st row Hrow).
    destruct (assert_can_be_flagged_by_user cfg st row flagger); [| reflexivity].
    rewrite Hpk, Hrow. simpl. apply lookup_insert_ne. congruence.
  - rewrite (add_flag_new _ _ _ _ _ _ _ _ st Hrow). simpl.
    destruct (assert_can_be_flagged_by_user _ _ _ _); simpl;
      apply lookup_insert_ne; congruence.
Qed.

(** X8. A call of [add_flag] deletes and rewrites no flag instance: every
    row of the table stays at its index, unchanged, and the table grows
    by one row when the call returns and by none when it raises. *)
Theorem add_flag_keeps_flag_instances (st : Store) :
  (∀ i fi, flaginstance_table st !! i = Some fi →
           flaginstance_table (call st).1 !! i = Some fi)
  ∧ length (flaginstance_table (call st).1)
    = length (flaginstance_table st) + (if raises (call st).2 then 0 else 1).
Proof.
  rewrite add_flag_instances. split.
  - intros i fi Hi. apply lookup_app_l_Some. exact Hi.
  - rewrite length_app. destruct (call st).2; reflexivity.
Qed.

(** X9. A call of [add_flag] that returns adds one to the flagger's
    number of flags on the object, and changes the number of no other
    user and on no other aggregate; a call that raises changes none. *)
Theorem add_flag_count_flags_by_user (st : Store) (self : FlaggedContent) (u : nat) :
  count_flags_by_user (call st).1 self u
  = count_flags_by_user st self u
    + match (call st).2 with
      | Return fi =>
          if decide (flagged_content fi = pk self ∧ flagger = u) then 1 else 0
      | Raise _ => 0
      end.
Proof.
  unfold count_flags_by_user. rewrite add_flag_instances.
  destruct (call st) as [st' [fi | e]] eqn:Hcall; simpl.
  - destruct (add_flag_returned st st' fi Hcall) as (fc & st0 & _ & _ & _ & Huser).
    rewrite length_filter_snoc, Huser. reflexivity.
  - rewrite app_nil_r. lia.
Qed.
End Outcome.

(** * Sequences of calls: the limits hold *)

(** What a passed check says of the aggregate and the user. *)
Lemma assert_returns cfg st self u b :
  assert_can_be_flagged_by_user cfg st self u = Return b →
  can_be_flagged cfg self = true
  ∧ py_ge (Z.of_nat (count_flags_by_user st self u)) (LIMIT_SAME_OBJECT_FOR_USER cfg)
    = false.
Proof.
  unfold assert_can_be_flagged_by_user, assert_can_be_flagged. intros H.
  destruct (can_be_flagged cfg self); simpl in H; [| discriminate].
  destruct (py_ge _ _); [discriminate | auto].
Qed.

Lemma run_snoc cfg ops o st :
  run cfg (ops ++ [o]) st = step cfg o (run cfg ops st).
Proof. unfold run. rewrite foldl_app. reflexivity. Qed.

Lemma run_store_ok cfg ops st : store_ok st → store_ok (run cfg ops st).
Proof.
  revert st. induction ops as [| o ops IH]; intros st Hok; [exact Hok |].
  simpl. apply IH, step_store_ok, Hok.
Qed.

Lemma add_flag_object_limit cfg now flagger ct oid cc c s st (L : Z) :
  LIMIT_FOR_OBJECT cfg = Some L → (0 < L)%Z →
  store_ok st →
  (∀ key row, flaggedcontent_table st !! key = Some row → (Z.of_nat (count row) ≤ L)%Z) →
  ∀ key row,
    flaggedcontent_table (add_flag cfg now flagger ct oid cc c s st).1 !! key = Some row →
    (Z.of_nat (count row) ≤ L)%Z.
Proof.
  intros HL Hpos Hok Hle key row'.
  destruct (flaggedcontent_table st !! (ct, oid)) as [row |] eqn:Hrow.
  - pose proof (Hok _ _ Hrow) as Hpk. simpl in Hpk.
    rewrite (add_flag_existing _ _ _ _ _ _ _ _ st row Hrow).
    destruct (assert_can_be_flagged_by_user cfg st row flagger) as [b |] eqn:Hassert;
      [| apply Hle].
    apply assert_returns in Hassert as [Hcan _].
    rewrite (can_be_flagged_pos cfg row L HL Hpos) in Hcan.
    apply Z.ltb_lt in Hcan.
    rewrite Hpk, Hrow. simpl.
    destruct (decide ((ct, oid) = key)) as [<- | Hne].
    + rewrite lookup_insert_eq. intros [= <-]. simpl. lia.
    + rewrite lookup_insert_ne by exact Hne. apply Hle.
  - rewrite (add_flag_new _ _ _ _ _ _ _ _ st Hrow). simpl.
    assert (flaggedcontent_table
              (with_flaggedcontent
                 (<[(ct, oid) := created_row ct oid cc s]> (flaggedcontent_table st)) st)
              !! key = Some row' → (Z.of_nat (count row') ≤ L)%Z) as Hins.
    { simpl. destruct (decide ((ct, oid) = key)) as [<- | Hne].
      - rewrite lookup_insert_eq. intros [= <-]. simpl. lia.
      - rewrite lookup_insert_ne by exact Hne. apply Hle. }
    destruct (assert_can_be_flagged_by_user _ _ _ _); exact Hins.
Qed.

(** X10. With an object-level limit [L > 0], no sequence of calls of
    [add_flag] and retractions from the empty store brings the count of
    an aggregate above [L]. *)
Theorem run_object_limit cfg ops key row (L : Z) :
  LIMIT_FOR_OBJECT cfg = Some L → (0 < L)%Z →
  flaggedcontent_table (run cfg ops empty_store) !! key = Some row →
  (Z.of_nat (count row) ≤ L)%Z.
Proof.
  intros HL Hpos. revert key row.
  induction ops as [| o ops IH] using rev_ind; intros key row.
  - simpl. rewrite lookup_empty. discriminate.
  - rewrite run_snoc. destruct o as [now flagger ct oid cc c s | i t]; simpl.
    + apply (add_flag_object_limit cfg now flagger ct oid cc c s _ L HL Hpos);
        [apply run_store_ok, store_ok_empty | exact IH].
    + apply IH.
Qed.

Lemma add_flag_user_limit cfg now flagger ct oid cc c s st (U : Z) :
  LIMIT_SAME_OBJECT_FOR_USER cfg = Some U →
  (∀ self u, (Z.of_nat (count_flags_by_user st self u) ≤ U)%Z) →
  ∀ self u,
    (Z.of_nat (count_flags_by_user (add_flag cfg now flagger ct oid cc c s st).1 self u)
     ≤ U)%Z.
Proof.
  intros HU Hle self u. specialize (Hle self u).
  unfold count_flags_by_user in *. rewrite add_flag_instances.
  destruct (add_flag cfg now flagger ct oid cc c s st) as [st' [fi | e]] eqn:Hcall;
    simpl; [| rewrite app_nil_r; exact Hle].
  destruct (add_flag_returned _ _ _ _ _ _ _ _ st st' fi Hcall)
    as (fc & st0 & Htable & Hassert & Hfk & Huser).
  apply assert_returns in Hassert as [_ Hge].
  rewrite HU in Hge. simpl in Hge. apply Z.leb_gt in Hge.
  unfold count_flags_by_user in Hge. rewrite Htable in Hge.
  rewrite length_filter_snoc.
  destruct (decide (flagged_content fi = pk self ∧ user fi = u)) as [[Hs Hu] | _];
    [| lia].
  rewrite <- Hfk, Hs, <- Huser, Hu in Hge. lia.
Qed.

(** X11. With a user-level limit [U > 0], no sequence of calls of
    [add_flag] and retractions from the empty store gives a user more
    than [U] flag instances on one aggregate, retracted ones included. *)
Theorem run_user_limit cfg ops self u (U : Z) :
  LIMIT_SAME_OBJECT_FOR_USER cfg = Some U → (0 < U)%Z →
  (Z.of_nat (count_flags_by_user (run cfg ops empty_store) self u) ≤ U)%Z.
Proof.
  intros HU Hpos. revert self u.
  induction ops as [| o ops IH] using rev_ind; intros self u.
  - change (count_flags_by_user (run cfg [] empty_store) self u) with 0. lia.
  - rewrite run_snoc. destruct o as [now flagger ct oid cc c s | i t]; simpl.
    + apply (add_flag_user_limit cfg now flagger ct oid cc c s _ U HU IH).
    + rewrite count_flags_by_user_recall. apply IH.
Qed.

(** X12. Under limits that let the first flag of an object through
    ([admits_first_flag]), after every sequence of calls of [add_flag]
    and retractions from the empty store the count of each aggregate is
    the number of flag instances that point to it. *)
Theorem run_count_is_number_of_flags cfg ops key row :
  admits_first_flag cfg = true →
  flaggedcontent_table (run cfg ops empty_store) !! key = Some row →
  count row = count_flag_instances (run cfg ops empty_store) key.
Proof.
  intros Hadm Hrow.
  destruct (run_counts_agree cfg ops Hadm) as [_ Hagree].
  rewrite (Hagree key), Hrow. reflexivity.
Qed.

(** X13. From any store whose rows are stored under their key, no
    sequence of calls of [add_flag] and retractions deletes an aggregate
    or lowers its count. *)
Theorem run_count_monotone cfg ops st key row :
  store_ok st →
  flaggedcontent_table st !! key = Some row →
  ∃ row', flaggedcontent_table (run cfg ops st) !! key = Some row'
          ∧ count row ≤ count row'.
Proof.
  revert st row. induction ops as [| o ops IH]; intros st row Hok Hrow.
  - exists row. split; [exact Hrow | lia].
  - simpl. destruct o as [now flagger ct oid cc c s | i t].
    + destruct (add_flag_count_monotone cfg now flagger ct oid cc c s st key row Hok Hrow)
        as (row1 & Hrow1 & Hle1).
      destruct (IH _ row1 (add_flag_store_ok cfg now flagger ct oid cc c s st Hok) Hrow1)
        as (row' & Hrow' & Hle').
      exists row'. split; [exact Hrow' | lia].
    + apply (IH (recall i t st) row Hok Hrow).
Qed.

(** * Retraction and [add_flag] *)

Lemma assert_can_be_flagged_by_user_recall cfg st self u i t :
  assert_can_be_flagged_by_user cfg (recall i t st) self u
  = assert_can_be_flagged_by_user cfg st self u.
Proof.
  unfold assert_can_be_flagged_by_user.
  rewrite count_flags_by_user_recall. reflexivity.
Qed.

(** X14. Retracting a flag instance of the table and calling [add_flag]
    give the same result and the same store in either order: a
    retraction frees no place under the limits. *)
Theorem add_flag_after_recall cfg now flagger ct oid cc c s st i t :
  i < length (flaginstance_table st) →
  add_flag cfg now flagger ct oid cc c s (recall i t st)
  = (recall i t (add_flag cfg now flagger ct oid cc c s st).1,
     (add_flag cfg now flagger ct oid cc c s st).2).
Proof.
  intros Hi.
  destruct (flaggedcontent_table st !! (ct, oid)) as [row |] eqn:Hrow.
  - rewrite (add_flag_existing _ _ _ _ _ _ _ _ (recall i t st) row Hrow).
    rewrite (add_flag_existing _ _ _ _ _ _ _ _ st row Hrow).
    rewrite assert_can_be_flagged_by_user_recall.
    destruct (assert_can_be_flagged_by_user cfg st row flagger); [| reflexivity].
    simpl. destruct (flaggedcontent_table st !! pk row); [| reflexivity].
    simpl. unfold recall, recorded, with_sent, with_flaginstance, with_flaggedcontent.
    simpl. rewrite alter_app_l by exact Hi. reflexivity.
  - rewrite (add_flag_new _ _ _ _ _ _ _ _ (recall i t st) Hrow).
    rewrite (add_flag_new _ _ _ _ _ _ _ _ st Hrow). simpl.
    change (with_flaggedcontent ?m (recall i t st))
      with (recall i t (with_flaggedcontent m st)).
    rewrite assert_can_be_flagged_by_user_recall.
    destruct (assert_can_be_flagged_by_user _ _ _ _); [| reflexivity].
    simpl. unfold recall, recorded, with_sent, with_flaginstance, with_flaggedcontent.
    simpl. rewrite alter_app_l by exact Hi. reflexivity.
Qed.

(** * [get_for_object] *)

#[local] Set Warnings "-clear-no-such-hyp".

Lemma add_flag_dom cfg now flagger ct oid cc c s st :
  dom (flaggedcontent_table (add_flag cfg now flagger ct oid cc c s st).1)
  = {[ (ct, oid) ]} ∪ dom (flaggedcontent_table st).
Proof.
  destruct (flaggedcontent_table st !! (ct, oid)) as [row |] eqn:Hrow.
  - assert ((ct, oid) ∈ dom (flaggedcontent_table st)) as Hin
      by (apply elem_of_dom; eauto).
    rewrite (add_flag_existing _ _ _ _ _ _ _ _ st row Hrow).
    destruct (assert_can_be_flagged_by_user cfg st row flagger); [| simpl; set_solver].
    destruct (flaggedcontent_table st !! pk row) as [stored |] eqn:Hstored;
      [| simpl; set_solver].
    assert (pk row ∈ dom (flaggedcontent_table st)) as Hin'
      by (apply elem_of_dom; eauto).
    simpl. rewrite dom_insert_L. set_solver.
  - rewrite (add_flag_new _ _ _ _ _ _ _ _ st Hrow). simpl.
    destruct (assert_can_be_flagged_by_user _ _ _ _); simpl; apply dom_insert_L.
Qed.

Lemma run_dom cfg ops st :
  dom (flaggedcontent_table (run cfg ops st))
  = list_to_set (flagged_objects ops) ∪ dom (flaggedcontent_table st).
Proof.
  revert st. induction ops as [| o ops IH]; intros st; [simpl; set_solver |].
  simpl. rewrite IH. destruct o as [now flagger ct oid cc c s | i t]; simpl.
  - rewrite add_flag_dom. set_solver.
  - set_solver.
Qed.

(** X15. After a sequence of calls of [add_flag] and retractions from
    the empty store, [get_for_object] returns the aggregate of an object,
    without writing, exactly when a call of [add_flag] named the object,
    whether that call returned or raised; for any other object it raises
    [DoesNotExist]. *)
Theorem get_for_object_after_run cfg ops ct oid :
  let st := run cfg ops empty_store in
  (get_for_object ct oid st).1 = st
  ∧ if decide ((ct, oid) ∈ flagged_objects ops)
    then ∃ row, (get_for_object ct oid st).2 = Return row
                ∧ content_type row = ct ∧ object_id row = oid
    else (get_for_object ct oid st).2 = Raise DoesNotExist.
Proof.
  intros st. split; [reflexivity |].
  pose proof (run_dom cfg ops empty_store) as Hdom. fold st in Hdom.
  pose proof (run_store_ok cfg ops empty_store store_ok_empty) as Hok. fold st in Hok.
  unfold get_for_object, reading. simpl.
  destruct (decide ((ct, oid) ∈ flagged_objects ops)) as [Hin | Hnin].
  - assert ((ct, oid) ∈ dom (flaggedcontent_table st)) as Hd
      by (rewrite Hdom; set_solver).
    apply elem_of_dom in Hd as [row Hrow]. rewrite Hrow.
    exists row. split; [reflexivity |].
    pose proof (Hok _ _ Hrow) as Hpk. simpl in Hpk. injection Hpk as -> ->. auto.
  - assert ((ct, oid) ∉ dom (flaggedcontent_table st)) as Hd
      by (rewrite Hdom; simpl; set_solver).
    apply not_elem_of_dom in Hd. rewrite Hd. reflexivity.
Qed.

(** * The further properties at concrete stores *)

(** [assert_agrees_with_user_limit] under [limits 1 5] for user 7, who has
    one flag on the aggregate of [two_flags]. *)
Lemma assert_agrees_with_user_limit_witness :
  ∃ e, assert_can_be_flagged_by_user (limits 1 5) two_flags (aggregate_2_3 None 2) 7
       = Raise e
       ∧ is_limit_error e = true.
Proof.
  apply (assert_agrees_with_user_limit (limits 1 5) two_flags (aggregate_2_3 None 2) 7 1%Z);
    [reflexivity | lia].
Defined.

(** [user_limit_error_message] for the same user: one flag, the message
    without number. *)
Lemma user_limit_error_message_witness :
  let n := count_flags_by_user two_flags (aggregate_2_3 None 2) 7 in
  can_be_flagged (limits 1 5) (aggregate_2_3 None 2) = true
  ∧ py_ge (Z.of_nat n) (LIMIT_SAME_OBJECT_FOR_USER (limits 1 5)) = true
  ∧ "You already flagged this"
    = (if decide (n = 1) then "You already flagged this"
       else "You already flagged this " +:+ pretty n +:+ " times").
Proof.
  apply (user_limit_error_message (limits 1 5) two_flags (aggregate_2_3 None 2) 7
           "You already flagged this").
  vm_compute. reflexivity.
Defined.

(** [negative_object_limit_refuses] at the limit [-1], first call. *)
Lemma negative_object_limit_refuses_witness :
  (add_flag (limits 5 (-1)) 100 7 2 3 None (Some "spam") None empty_store).2
  = Raise (ContentFlaggedEnoughException "Flag limit raised").
Proof.
  apply (negative_object_limit_refuses (limits 5 (-1)) 100 7 2 3 None (Some "spam") None
           empty_store (-1)%Z); [reflexivity | lia].
Defined.

(** [add_flag_raises_iff] under [limits 1 5]: user 7 flags the object of
    [one_flag] a second time. *)
Lemma add_flag_raises_iff_witness :
  raises (add_flag (limits 1 5) 101 7 2 3 None (Some "spam") None one_flag).2
  = negb (can_be_flagged_by_user (limits 1 5) one_flag (aggregate_2_3 (Some 9) 1) 7).
Proof.
  apply (add_flag_raises_iff (limits 1 5) 101 7 2 3 None (Some "spam") None one_flag
           (aggregate_2_3 (Some 9) 1) 1%Z).
  - apply (bool_decide_unpack _). vm_compute. exact I.
  - vm_compute. reflexivity.
  - reflexivity.
  - lia.
Defined.

(** [add_flag_returns_existing]: user 8 flags the object of [one_flag],
    passing another creator and status. *)
Lemma add_flag_returns_existing_witness :
  let fi := {| flagged_content := (2, 3); user := 8; when_added := 101;
               when_recalled := None; comment := Some "again" |} in
  fi = {| flagged_content := (2, 3); user := 8; when_added := 101;
          when_recalled := None; comment := Some "again" |}
  ∧ flaggedcontent_table
      (add_flag (limits 5 0) 101 8 2 3 (Some 8) (Some "again") (Some "3") one_flag).1
      !! (2, 3)
    = Some {| content_type := 2; object_id := 3; creator := Some 9; status := "1";
              moderator := None; count := 2 |}.
Proof.
  apply (add_flag_returns_existing (limits 5 0) 101 8 2 3 (Some 8) (Some "again")
           (Some "3") one_flag _ (aggregate_2_3 (Some 9) 1)).
  - apply (bool_decide_unpack _). vm_compute. exact I.
  - vm_compute. reflexivity.
  - vm_compute. reflexivity.
Defined.

(** [add_flag_returns_new]: the first flag of an object, with creator 9
    and status ["3"]. *)
Lemma add_flag_returns_new_witness :
  let fi := {| flagged_content := (2, 3); user := 7; when_added := 100;
               when_recalled := None; comment := None |} in
  fi = {| flagged_content := (2, 3); user := 7; when_added := 100;
          when_recalled := None; comment := None |}
  ∧ flaggedcontent_table
      (add_flag (limits 5 0) 100 7 2 3 (Some 9) None (Some "3") empty_store).1
      !! (2, 3)
    = Some {| content_type := 2; object_id := 3; creator := Some 9; status := "3";
              moderator := None; count := 1 |}.
Proof.
  apply (add_flag_returns_new (limits 5 0) 100 7 2 3 (Some 9) None (Some "3")
           empty_store).
  - vm_compute. reflexivity.
  - vm_compute. reflexivity.
Defined.

(** [add_flag_other_objects]: a call for object 5 of content type 4
    leaves the aggregate of [one_flag]. *)
Lemma add_flag_other_objects_witness :
  flaggedcontent_table
    (add_flag (limits 5 0) 101 8 4 5 None (Some "spam") None one_flag).1 !! (2, 3)
  = flaggedcontent_table one_flag !! (2, 3).
Proof.
  apply (add_flag_other_objects (limits 5 0) 101 8 4 5 None (Some "spam") None
           one_flag (2, 3)).
  - apply (bool_decide_unpack _). vm_compute. exact I.
  - discriminate.
Defined.

(** The requests of [two_flags], then a third flag by user 9, a second by
    user 7 and a retraction. *)
Lemma run_object_limit_witness :
  (Z.of_nat (count (aggregate_2_3 None 2)) ≤ 2)%Z.
Proof.
  apply (run_object_limit (limits 1 2)
           [Add 100 7 2 3 None (Some "spam") None;
            Add 101 8 2 3 None (Some "spam") None;
            Add 102 9 2 3 None (Some "spam") None;
            Add 103 7 2 3 None (Some "spam") None;
            Recall 0 104] (2, 3) (aggregate_2_3 None 2) 2%Z);
    [reflexivity | lia | vm_compute; reflexivity].
Defined.

Lemma run_user_limit_witness :
  (Z.of_nat
     (count_flags_by_user
        (run (limits 1 2)
           [Add 100 7 2 3 None (Some "spam") None;
            Recall 0 101;
            Add 102 7 2 3 None (Some "spam") None] empty_store)
        (aggregate_2_3 None 1) 7)
   ≤ 1)%Z.
Proof.
  apply (run_user_limit (limits 1 2) _ (aggregate_2_3 None 1) 7 1%Z);
    [reflexivity | lia].
Defined.

Lemma run_count_is_number_of_flags_witness :
  count (aggregate_2_3 None 2)
  = count_flag_instances
      (run (limits 5 0)
         [Add 100 7 2 3 None (Some "spam") None;
          Recall 0 101;
          Add 102 7 2 3 None (Some "spam") None] empty_store) (2, 3).
Proof.
  apply (run_count_is_number_of_flags (limits 5 0)
           [Add 100 7 2 3 None (Some "spam") None;
            Recall 0 101;
            Add 102 7 2 3 None (Some "spam") None] (2, 3) (aggregate_2_3 None 2));
    vm_compute; reflexivity.
Defined.

Lemma run_count_monotone_witness :
  ∃ row',
    flaggedcontent_table
      (run (limits 1 5)
         [Recall 0 101; Add 102 7 2 3 None None None;
          Add 103 8 2 3 None None None] one_flag) !! (2, 3) = Some row'
    ∧ count (aggregate_2_3 (Some 9) 1) ≤ count row'.
Proof.
  apply (run_count_monotone (limits 1 5) _ one_flag (2, 3) (aggregate_2_3 (Some 9) 1)).
  - apply (bool_decide_unpack _). vm_compute. exact I.
  - vm_compute. reflexivity.
Defined.

Lemma add_flag_after_recall_witness :
  add_flag (limits 1 0) 102 7 2 3 None None None (recall 0 101 one_flag)
  = (recall 0 101 (add_flag (limits 1 0) 102 7 2 3 None None None one_flag).1,
     (add_flag (limits 1 0) 102 7 2 3 None None None one_flag).2).
Proof.
  apply (add_flag_after_recall (limits 1 0) 102 7 2 3 None None None one_flag 0 101).
  vm_compute. lia.
Defined.

(** * The first flag of an object *)

(** X16. Under limits that satisfy [admits_first_flag] (object-level
    limit unset, [0] or above [1]; user-level limit above [0]), a call of
    [add_flag] for an object without aggregate and without flag instance
    returns. *)
Theorem first_flag_accepted cfg now flagger ct oid cc c s st :
  admits_first_flag cfg = true →
  flaggedcontent_table st !! (ct, oid) = None →
  count_flag_instances st (ct, oid) = 0 →
  (add_flag cfg now flagger ct oid cc c s st).2
  = Return {| flagged_content := (ct, oid); user := flagger; when_added := now;
              when_recalled := None; comment := c |}.
Proof.
  intros Hadm Hrow Hnone.
  rewrite (add_flag_new _ _ _ _ _ _ _ _ st Hrow). simpl.
  set (row := created_row ct oid cc s).
  set (st1 := with_flaggedcontent _ st).
  assert (assert_can_be_flagged_by_user cfg st1 row flagger = Return true) as ->;
    [| reflexivity].
  apply andb_true_iff in Hadm as [HL HU].
  assert (can_be_flagged cfg row = true) as Hcan.
  { unfold can_be_flagged.
    destruct (truthy (LIMIT_FOR_OBJECT cfg)); [exact HL | reflexivity]. }
  unfold assert_can_be_flagged_by_user, assert_can_be_flagged.
  rewrite Hcan. simpl.
  assert (count_flags_by_user st1 row flagger = 0) as ->.
  { pose proof (count_flags_by_user_le st1 row flagger) as Hle.
    change (count_flag_instances st1 (pk row))
      with (count_flag_instances st (ct, oid)) in Hle. lia. }
  apply negb_true_iff in HU. change (Z.of_nat 0) with 0%Z.
  rewrite HU. reflexivity.
Qed.

Lemma first_flag_accepted_witness :
  (add_flag (limits 1 2) 100 7 2 3 None (Some "spam") None empty_store).2
  = Return {| flagged_content := (2, 3); user := 7; when_added := 100;
              when_recalled := None; comment := Some "spam" |}.
Proof.
  apply (first_flag_accepted (limits 1 2) 100 7 2 3 None (Some "spam") None empty_store);
    vm_compute; reflexivity.
Defined.

(** * A refused call and the tables *)

Lemma created_row_passes cfg flagger ct oid cc s st :
  admits_first_flag cfg = true →
  count_flag_instances st (ct, oid) = 0 →
  assert_can_be_flagged_by_user cfg
    (with_flaggedcontent
       (<[(ct, oid) := created_row ct oid cc s]> (flaggedcontent_table st)) st)
    (created_row ct oid cc s) flagger
  = Return true.
Proof.
  intros Hadm Hnone.
  set (row := created_row ct oid cc s).
  set (st1 := with_flaggedcontent _ st).
  apply andb_true_iff in Hadm as [HL HU].
  assert (can_be_flagged cfg row = true) as Hcan.
  { unfold can_be_flagged.
    destruct (truthy (LIMIT_FOR_OBJECT cfg)); [exact HL | reflexivity]. }
  unfold assert_can_be_flagged_by_user, assert_can_be_flagged.
  rewrite Hcan. simpl.
  assert (count_flags_by_user st1 row flagger = 0) as ->.
  { pose proof (count_flags_by_user_le st1 row flagger) as Hle.
    change (count_flag_instances st1 (pk row))
      with (count_flag_instances st (ct, oid)) in Hle. lia. }
  apply negb_true_iff in HU. change (Z.of_nat 0) with 0%Z.
  rewrite HU. reflexivity.
Qed.

(** Under limits that let the first flag of an object through, a call of
    [add_flag] that raises has written nothing at all: no aggregate is
    created or modified, no flag instance is created, no signal is sent. *)
Lemma add_flag_raise_no_mutation cfg now flagger ct oid cc c s st st' e :
  admits_first_flag cfg = true →
  counts_agree st →
  add_flag cfg now flagger ct oid cc c s st = (st', Raise e) →
  st' = st.
Proof.
  intros Hadm Hagree Hcall.
  destruct (add_flag_raise_store _ _ _ _ _ _ _ _ st st' e Hcall) as [-> | [Hnone _]];
    [reflexivity |].
  exfalso.
  pose proof (Hagree (ct, oid)) as H0. rewrite Hnone in H0. simpl in H0.
  rewrite (add_flag_new _ _ _ _ _ _ _ _ st Hnone) in Hcall. simpl in Hcall.
  rewrite (created_row_passes cfg flagger ct oid cc s st Hadm H0) in Hcall.
  discriminate.
Qed.

(** The same after any sequence of requests from the empty store. *)
Lemma run_add_flag_raise_no_mutation cfg ops now flagger ct oid cc c s st' e :
  admits_first_flag cfg = true →
  add_flag cfg now flagger ct oid cc c s (run cfg ops empty_store) = (st', Raise e) →
  st' = run cfg ops empty_store.
Proof.
  intros Hadm. apply add_flag_raise_no_mutation; [exact Hadm |].
  apply (run_counts_agree cfg ops Hadm).
Qed.

(** * Retracted flags and the user-level limit *)

(** C10. [count_flags_by_user] counts the user's flag instances on the
    aggregate whether retracted or not: it is the number of those without
    [when_recalled] plus the number of those with one, and retracting a
    flag instance does not change it.  So do the user-level checks: with
    a limit [U > 0] and the object-level check passed,
    [can_be_flagged_by_user] is false, and
    [assert_can_be_flagged_by_user] raises
    [ContentAlreadyFlaggedByUserException], exactly when the retracted
    and the other flags together are at least [U]; a user with [U]
    retracted flags is refused whatever else holds. *)
Theorem count_flags_by_user_includes_recalled (st : Store) (self : FlaggedContent) (u : nat) :
  let active :=
    length (filter (λ fi, (flagged_content fi = pk self ∧ user fi = u)
                          ∧ when_recalled fi = None) (flaginstance_table st)) in
  let recalled :=
    length (filter (λ fi, (flagged_content fi = pk self ∧ user fi = u)
                          ∧ when_recalled fi ≠ None) (flaginstance_table st)) in
  count_flags_by_user st self u = active + recalled
  ∧ (∀ i t, count_flags_by_user (recall i t st) self u = count_flags_by_user st self u)
  ∧ (∀ cfg i t,
       can_be_flagged_by_user cfg (recall i t st) self u
       = can_be_flagged_by_user cfg st self u
       ∧ assert_can_be_flagged_by_user cfg (recall i t st) self u
         = assert_can_be_flagged_by_user cfg st self u)
  ∧ (∀ cfg (U : Z),
       LIMIT_SAME_OBJECT_FOR_USER cfg = Some U → (0 < U)%Z →
       can_be_flagged cfg self = true →
       (can_be_flagged_by_user cfg st self u = false
        ↔ (U ≤ Z.of_nat (active + recalled))%Z)
       ∧ (assert_can_be_flagged_by_user cfg st self u
            = Raise (ContentAlreadyFlaggedByUserException
                       (already_flagged_message (active + recalled)))
          ↔ (U ≤ Z.of_nat (active + recalled))%Z))
  ∧ (∀ cfg (U : Z),
       LIMIT_SAME_OBJECT_FOR_USER cfg = Some U → (0 < U)%Z →
       (U ≤ Z.of_nat recalled)%Z →
       can_be_flagged_by_user cfg st self u = false
       ∧ raises (assert_can_be_flagged_by_user cfg st self u) = true).
Proof.
  intros active recalled.
  assert (count_flags_by_user st self u = active + recalled) as Hsplit.
  { unfold count_flags_by_user.
    apply (length_filter_split _ (λ fi, when_recalled fi = None)). }
  split; [exact Hsplit |]. split; [| split; [| split]].
  - intros i t. apply count_flags_by_user_recall.
  - intros cfg i t.
    unfold can_be_flagged_by_user, assert_can_be_flagged_by_user.
    rewrite count_flags_by_user_recall. split; reflexivity.
  - intros cfg U HU Hpos Hcan. rewrite <- Hsplit. split.
    + unfold can_be_flagged_by_user.
      rewrite (truthy_pos _ _ HU Hpos), Hcan, HU. simpl. apply Z.ltb_ge.
    + unfold assert_can_be_flagged_by_user, assert_can_be_flagged.
      rewrite Hcan, HU. simpl.
      destruct (U <=? Z.of_nat (count_flags_by_user st self u))%Z eqn:Hle.
      * apply Z.leb_le in Hle. split; [intros _; exact Hle | reflexivity].
      * apply Z.leb_gt in Hle. split; [discriminate | lia].
  - intros cfg U HU Hpos Hrec.
    assert (can_be_flagged_by_user cfg st self u = false) as Hfalse.
    { unfold can_be_flagged_by_user.
      rewrite (truthy_pos _ _ HU Hpos), HU. simpl.
      destruct (can_be_flagged cfg self); [| reflexivity].
      simpl. apply Z.ltb_ge. lia. }
    split; [exact Hfalse |].
    rewrite (assert_raises_user_limit cfg st self u U HU Hpos), Hfalse. reflexivity.
Qed.

(** [count_flags_by_user_includes_recalled] under [limits 1 0]: user 7
    retracted the one flag of [one_flag], and is refused a second one. *)
Lemma count_flags_by_user_includes_recalled_witness :
  can_be_flagged_by_user (limits 1 0) (recall 0 101 one_flag) (aggregate_2_3 (Some 9) 1) 7
  = false
  ∧ raises (assert_can_be_flagged_by_user (limits 1 0) (recall 0 101 one_flag)
              (aggregate_2_3 (Some 9) 1) 7) = true.
Proof.
  pose proof (count_flags_by_user_includes_recalled (recall 0 101 one_flag)
                (aggregate_2_3 (Some 9) 1) 7) as H.
  cbv zeta in H. destruct H as (_ & _ & _ & _ & H).
  apply (H (limits 1 0) 1%Z); [reflexivity | lia | vm_compute; discriminate].
Defined.
